(** * AgriAI prototype: the yield mock and the advisory rules

    A shallow embedding of the two closures of [AgriAIPrototype] that carry
    logic, [fakePredictAPI] and [generateRecommendations], and the
    properties the specification states about them.

    Numbers.  A JavaScript Number is modelled by an exact rational ([Q]):
    every finite binary64 value is one, the arithmetic operators are taken
    exact, and the rounding error, the infinities and NaN of binary64 are
    outside the model.  Numeric results are compared with [==].  Module
    [Binary64] evaluates the product of the estimate on binary64 values at
    the inputs of the examples, where the two agree to 10^-15.

    Component.  The state of [AgriAIPrototype] is the record of its
    [useState] cells.  An event is handled by its handler, followed by the
    effect on [[user, farm]] when the handler stored a new user or farm
    object; [fetchAllData] is taken at the point where its promise has
    settled, with no other event in between.

    Objects.  [baseByCrop] is modelled by its own properties, a finite map
    from crop names to numbers.  Crops are the names the form offers (wheat,
    rice, maize, cotton) and other crop names; the names every object
    inherits (constructor, toString, ...) are not crop names and are
    outside the model. *)

From Stdlib Require Import QArith Qabs Qround Qminmax Lqa Lia List.
From Stdlib Require Import PrimFloat SpecFloat FloatOps.
From stdpp Require Import gmap strings.

Local Open Scope Q_scope.

(** ** The fragment of JavaScript the two closures use *)

Definition number : Type := Q.

(** [x < y] on Numbers. *)
Definition lt_number (x y : number) : bool :=
  match x ?= y with
  | Lt => true
  | _ => false
  end.

(** [v || d] where [v] is a property read: [None] is [undefined]; a Number
    is falsy when it is zero. *)
Definition or_else (v : option number) (d : number) : number :=
  match v with
  | Some x => if Qeq_bool x 0 then d else x
  | None => d
  end.

Module Math.
Definition abs (x : number) : number := Qabs x.
Definition min (x y : number) : number := Qmin x y.
Definition max (x y : number) : number := Qmax x y.
End Math.

(** [arr.push(x)]: the array with [x] appended. *)
Definition push {A : Type} (arr : list A) (x : A) : list A := arr ++ [x].

Inductive JSError : Type :=
  | RangeError
  | TypeError.

(** The outcome of evaluating an expression that may throw. *)
Inductive Completion (A : Type) : Type :=
  | Normal (a : A)
  | Throw (e : JSError).
Arguments Normal {A} a.
Arguments Throw {A} e.

#[global] Instance Completion_ret : MRet Completion := fun A a => Normal a.

#[global] Instance Completion_bind : MBind Completion := fun A B k c =>
  match c with
  | Normal a => k a
  | Throw e => Throw e
  end.

(** The settled state of the promise an async function returns: fulfilled
    with the returned value, or rejected with what the body threw. *)
Inductive Promise (A : Type) : Type :=
  | Fulfilled (v : A)
  | Rejected (e : JSError).
Arguments Fulfilled {A} v.
Arguments Rejected {A} e.

Definition async {A : Type} (body : Completion A) : Promise A :=
  match body with
  | Normal a => Fulfilled a
  | Throw e => Rejected e
  end.

(** The decimal numeral [toFixed] prints: an optional minus sign and the
    digits of [scaled] with a point before the last [places] of them. *)
Record Numeral : Type := {
  minus : bool;
  scaled : Z;
  places : Z
}.

(** [x.toFixed(fractionDigits)].  A RangeError outside 0..100; otherwise
    the sign is split off, and the digits are those of the integer [n] for
    which [n / 10^f - x] is as close to zero as possible, the larger [n]
    when there are two.  (From 10^21 on [toFixed] prints the Number itself;
    a binary64 value that large is an integer, which is what the rule above
    gives for an integer.) *)
Definition toFixed (x : number) (fractionDigits : Z) : Completion Numeral :=
  if ((fractionDigits <? 0) || (100 <? fractionDigits))%Z
  then Throw RangeError
  else
    let s := lt_number x 0 in
    let x := if s then - x else x in
    let n := Qfloor (x * inject_Z (10 ^ fractionDigits)%Z + (1 # 2)) in
    Normal {| minus := s; scaled := n; places := fractionDigits |}.

(** Unary [+] on a numeral printed by [toFixed]: the Number it spells. *)
Definition unary_plus (s : Numeral) : number :=
  let v := inject_Z (scaled s) / inject_Z (10 ^ places s)%Z in
  if minus s then - v else v.

(** ** The records of the prototype *)

(** [mockSoil]'s shape. *)
Record Soil : Type := {
  ph : number;
  organicMatterPct : number;
  moisturePct : number
}.

(** [mockWeather]'s shape. *)
Record Weather : Type := {
  tempC : number;
  rainNext7DaysMm : number;
  condition : string
}.

(** The argument of [fakePredictAPI]. *)
Record Features : Type := {
  crop : string;
  areaHa : number;
  soil : Soil;
  weather : Weather
}.

(** What [fakePredictAPI] resolves to. *)
Record Prediction : Type := {
  yieldTons : number;
  confidence : number
}.

(** An entry of the recommendations array. *)
Record Recommendation : Type := {
  type : string;
  msg : string
}.

(** ** fakePredictAPI *)

Definition baseByCrop : gmap string number :=
  {[ "wheat" := 3.2; "rice" := 4.0; "maize" := 5.0 ]}.

Definition base (features : Features) : number :=
  or_else (baseByCrop !! crop features) 2.5.

Definition moistureFactor (features : Features) : number :=
  Math.max 0.8 (Math.min 1.2 (0.5 + moisturePct (soil features) / 50)).

Definition phFactor (features : Features) : number :=
  1 - Math.abs (6.5 - ph (soil features)) / 10.

Definition weatherFactor (features : Features) : number :=
  1 - Math.min 0.3 (Math.abs (tempC (weather features) - 25) / 50).

(** The awaited timer promise always resolves; it delays the result and
    does not change it. *)
Definition fakePredictAPI (features : Features) : Promise Prediction :=
  async (
    s ← toFixed (base features * moistureFactor features * phFactor features
                 * weatherFactor features * areaHa features) 2;
    let predictedYieldTons := unary_plus s in
    mret {| yieldTons := predictedYieldTons; confidence := 0.82 |}).

(** ** generateRecommendations *)

Definition irrigation_apply : Recommendation :=
  {| type := "irrigation"; msg := "Apply 20mm irrigation in next 3 days" |}.

Definition irrigation_sufficient : Recommendation :=
  {| type := "irrigation"; msg := "Soil moisture sufficient for 5 days" |}.

Definition fertilizer_compost : Recommendation :=
  {| type := "fertilizer"; msg := "Apply 30kg/ha organic compost" |}.

Definition pest_monitor : Recommendation :=
  {| type := "pest";
     msg := "Monitor for aphids — set up yellow sticky traps" |}.

Definition generateRecommendations (crop : string) (soil : Soil)
    (weather : Weather) : list Recommendation :=
  let recs := [] in
  let recs :=
    if lt_number (moisturePct soil) 20 then push recs irrigation_apply
    else push recs irrigation_sufficient in
  let recs :=
    if lt_number (organicMatterPct soil) 2 then push recs fertilizer_compost
    else recs in
  let recs := push recs pest_monitor in
  recs.

(** ** The mocked readings of [fetchAllData] *)

Definition mockWeather : Weather :=
  {| tempC := 29; rainNext7DaysMm := 12; condition := "Partly Cloudy" |}.

Definition mockSoil : Soil :=
  {| ph := 6.5; organicMatterPct := 1.8; moisturePct := 24 |}.

Definition mockFeatures (crop : string) (areaHa : number) : Features :=
  {| crop := crop; areaHa := areaHa; soil := mockSoil; weather := mockWeather |}.

(** ** The estimate as the specification words it *)

Module Spec.

(** Base yield per hectare by crop. *)
Definition base (crop : string) : number :=
  if decide (crop = "wheat") then 3.2
  else if decide (crop = "rice") then 4.0
  else if decide (crop = "maize") then 5.0
  else 2.5.

Definition clamp (x lower upper : number) : number :=
  if lt_number x lower then lower
  else if lt_number upper x then upper
  else x.

Definition moistureFactor (moisturePercent : number) : number :=
  clamp (0.5 + moisturePercent / 50) 0.8 1.2.

Definition phFactor (ph : number) : number :=
  1 - Qabs (6.5 - ph) / 10.

Definition weatherFactor (temperatureCelsius : number) : number :=
  1 - Qmin 0.3 (Qabs (temperatureCelsius - 25) / 50).


Definition unrounded (f : Features) : number :=
  base (crop f) * moistureFactor (moisturePct (soil f))
  * phFactor (ph (soil f)) * weatherFactor (tempC (weather f)) * areaHa f.

End Spec.

(** ** The product in binary64

    The product of [fakePredictAPI] once more, on the binary64 values the
    engine computes with, to compare the exact model with at the inputs of
    the examples. *)

Module Binary64.

#[local] Set Warnings "-inexact-float".

(** The rational a finite binary64 value stands for. *)
Definition exact (x : float) : option Q :=
  match Prim2SF x with
  | S754_zero _ => Some 0
  | S754_finite s m e =>
      let v := inject_Z (Zpos m) * Qpower 2 e in
      Some (if s then - v else v)
  | S754_infinity _ => None
  | S754_nan => None
  end.

(** [v || d]: zero and NaN are falsy. *)
Definition or_else (v : option float) (d : float) : float :=
  match v with
  | Some x => if is_zero x || is_nan x then d else x
  | None => d
  end.

(** [Math.min] and [Math.max]: NaN when an argument is NaN, and -0 below
    +0. *)
Definition min (a b : float) : float :=
  if is_nan a || is_nan b then nan
  else if (a <? b)%float then a
  else if (b <? a)%float then b
  else if get_sign a then a else b.

Definition max (a b : float) : float :=
  if is_nan a || is_nan b then nan
  else if (a <? b)%float then b
  else if (b <? a)%float then a
  else if get_sign a then b else a.

Definition baseByCrop : gmap string float :=
  {[ "wheat" := 3.2%float; "rice" := 4.0%float; "maize" := 5.0%float ]}.

Definition unrounded (crop : string) (areaHa ph moisturePct tempC : float)
  : float :=
  let base := or_else (baseByCrop !! crop) 2.5%float in
  let moistureFactor := (max 0.8 (min 1.2 (0.5 + moisturePct / 50)))%float in
  let phFactor := (1 - abs (6.5 - ph) / 10)%float in
  let weatherFactor := (1 - min 0.3 (abs (tempC - 25) / 50))%float in
  (base * moistureFactor * phFactor * weatherFactor * areaHa)%float.

End Binary64.

(** ** Derived notions the statements use *)

(** The Number that [+x.toFixed(2)] evaluates to. *)
Definition fixed2 (x : number) : number :=
  unary_plus {| minus := lt_number x 0;
                scaled := Qfloor ((if lt_number x 0 then - x else x)
                                  * inject_Z (10 ^ 2)%Z + (1 # 2));
                places := 2 |}.

(** The entries of one category, in order. *)
Definition of_type (t : string) (recs : list Recommendation)
  : list Recommendation :=
  filter (fun r => type r = t) recs.

(** Soil samples whose three readings are the same Numbers. *)
Definition same_soil (s1 s2 : Soil) : Prop :=
  ph s1 == ph s2
  /\ organicMatterPct s1 == organicMatterPct s2
  /\ moisturePct s1 == moisturePct s2.


(** ** The localization map [t] *)

(** A string is falsy when it is empty. *)
Definition truthy (s : string) : bool :=
  match s with
  | EmptyString => false
  | String _ _ => true
  end.

(** [a && b] where [a] is an object or [undefined]. *)
Definition and_then {A B : Type} (a : option A) (b : A -> option B)
  : option B :=
  match a with
  | Some o => b o
  | None => None
  end.

(** [a || b] where [a] is a string or [undefined]. *)
Definition or_undefined (a b : option string) : option string :=
  match a with
  | Some x => if truthy x then Some x else b
  | None => b
  end.

(** [a || k] where [k] is a string. *)
Definition or_string (a : option string) (k : string) : string :=
  match a with
  | Some x => if truthy x then x else k
  | None => k
  end.

Definition dict_en : gmap string string :=
  <["login" := "Login"]>
  {[ "username" := "Phone or ID"; "enter" := "Enter";
     "selectLang" := "Language"; "predict" := "Predict Yield";
     "dashboard" := "Dashboard"; "welcome" := "Welcome";
     "yield" := "Predicted Yield (tonnes)"; "recs" := "Recommendations";
     "weather" := "Weather"; "soil" := "Soil"; "irrigation" := "Irrigation";
     "fertilizer" := "Fertilizer"; "pest" := "Pest Control" ]}.

Definition dict_hi : gmap string string :=
  <["login" := "लॉगिन"]>
  {[ "username" := "फोन या आईडी";
     "enter" := "प्रविष्ट करें"; "selectLang" := "भाषा";
     "predict" := "उपज अनुमान"; "dashboard" := "डैशबोर्ड";
     "welcome" := "स्वागत है"; "yield" := "अनुमानित उपज (टन)";
     "recs" := "सिफारिशें"; "weather" := "मौसम"; "soil" := "मिट्टी";
     "irrigation" := "सिंचाई"; "fertilizer" := "उर्वरक";
     "pest" := "कीट नियंत्रण" ]}.

Definition dict : gmap string (gmap string string) :=
  {[ "en" := dict_en; "hi" := dict_hi ]}.

(** [t(k)] under the selected [language]. *)
Definition t (language k : string) : string :=
  or_string
    (or_undefined (and_then (dict !! language) (fun d => d !! k))
                  (and_then (dict !! "en") (fun d => d !! k)))
    k.

(** ** The state of the component and its handlers *)

(** The [user] object: [{id}] while typing, [{id, name}] once entered. *)
Module User.
Record t : Type := mk {
  id : string;
  name : option string
}.
End User.

Module Farm.
Record t : Type := mk {
  name : string;
  crop : string;
  areaHa : number
}.
End Farm.

(** The eight [useState] cells, and the errors written to the console. *)
Module State.
Record t : Type := mk {
  user : option User.t;
  language : string;
  loading : bool;
  farm : Farm.t;
  prediction : option Prediction;
  weather : option Weather;
  soil : option Soil;
  recommendations : list Recommendation;
  console : list JSError
}.
End State.

Definition initial : State.t :=
  {| State.user := None; State.language := "en"; State.loading := false;
     State.farm := {| Farm.name := ""; Farm.crop := "wheat"; Farm.areaHa := 1 |};
     State.prediction := None; State.weather := None; State.soil := None;
     State.recommendations := []; State.console := [] |}.

Definition setUser (v : option User.t) (s : State.t) : State.t :=
  {| State.user := v; State.language := State.language s;
     State.loading := State.loading s; State.farm := State.farm s;
     State.prediction := State.prediction s; State.weather := State.weather s;
     State.soil := State.soil s;
     State.recommendations := State.recommendations s;
     State.console := State.console s |}.

Definition setLanguage (v : string) (s : State.t) : State.t :=
  {| State.user := State.user s; State.language := v;
     State.loading := State.loading s; State.farm := State.farm s;
     State.prediction := State.prediction s; State.weather := State.weather s;
     State.soil := State.soil s;
     State.recommendations := State.recommendations s;
     State.console := State.console s |}.

Definition setLoading (v : bool) (s : State.t) : State.t :=
  {| State.user := State.user s; State.language := State.language s;
     State.loading := v; State.farm := State.farm s;
     State.prediction := State.prediction s; State.weather := State.weather s;
     State.soil := State.soil s;
     State.recommendations := State.recommendations s;
     State.console := State.console s |}.

Definition setFarm (v : Farm.t) (s : State.t) : State.t :=
  {| State.user := State.user s; State.language := State.language s;
     State.loading := State.loading s; State.farm := v;
     State.prediction := State.prediction s; State.weather := State.weather s;
     State.soil := State.soil s;
     State.recommendations := State.recommendations s;
     State.console := State.console s |}.

Definition setPrediction (v : option Prediction) (s : State.t) : State.t :=
  {| State.user := State.user s; State.language := State.language s;
     State.loading := State.loading s; State.farm := State.farm s;
     State.prediction := v; State.weather := State.weather s;
     State.soil := State.soil s;
     State.recommendations := State.recommendations s;
     State.console := State.console s |}.

Definition setWeather (v : option Weather) (s : State.t) : State.t :=
  {| State.user := State.user s; State.language := State.language s;
     State.loading := State.loading s; State.farm := State.farm s;
     State.prediction := State.prediction s; State.weather := v;
     State.soil := State.soil s;
     State.recommendations := State.recommendations s;
     State.console := State.console s |}.

Definition setSoil (v : option Soil) (s : State.t) : State.t :=
  {| State.user := State.user s; State.language := State.language s;
     State.loading := State.loading s; State.farm := State.farm s;
     State.prediction := State.prediction s; State.weather := State.weather s;
     State.soil := v;
     State.recommendations := State.recommendations s;
     State.console := State.console s |}.

Definition setRecommendations (v : list Recommendation) (s : State.t)
  : State.t :=
  {| State.user := State.user s; State.language := State.language s;
     State.loading := State.loading s; State.farm := State.farm s;
     State.prediction := State.prediction s; State.weather := State.weather s;
     State.soil := State.soil s;
     State.recommendations := v;
     State.console := State.console s |}.

(** [console.error(err)]. *)
Definition console_error (err : JSError) (s : State.t) : State.t :=
  {| State.user := State.user s; State.language := State.language s;
     State.loading := State.loading s; State.farm := State.farm s;
     State.prediction := State.prediction s; State.weather := State.weather s;
     State.soil := State.soil s;
     State.recommendations := State.recommendations s;
     State.console := push (State.console s) err |}.

(** [fetchAllData], as the state once its promise has settled with no other
    event in between: the setters in order, the [catch] branch when the
    awaited prediction is rejected, the [finally] branch last.  [farm] is
    the one of the render that made the closure. *)
Definition fetchAllData (s : State.t) : State.t :=
  let farm := State.farm s in
  let s := setLoading true s in
  let s := setWeather (Some mockWeather) s in
  let s := setSoil (Some mockSoil) s in
  let s :=
    match fakePredictAPI {| crop := Farm.crop farm; areaHa := Farm.areaHa farm;
                            soil := mockSoil; weather := mockWeather |} with
    | Fulfilled mockPrediction =>
        let s := setPrediction (Some mockPrediction) s in
        let mockRecs :=
          generateRecommendations (Farm.crop farm) mockSoil mockWeather in
        setRecommendations mockRecs s
    | Rejected err => console_error err s
    end in
  setLoading false s.

(** The effect on [[user, farm]]: [if (user) fetchAllData()]. *)
Definition useEffect (s : State.t) : State.t :=
  match State.user s with
  | Some _ => fetchAllData s
  | None => s
  end.

Inductive Screen : Type :=
  | Login
  | Dashboard.

(** [!user || !user.name ? <Login/> : <Dashboard/>]. *)
Definition screen (s : State.t) : Screen :=
  match State.user s with
  | None => Login
  | Some u =>
      match User.name u with
      | None => Login
      | Some n => if truthy n then Dashboard else Login
      end
  end.

(** The handlers the two screens attach.  [AreaChange] carries the Number
    that [parseFloat] returned. *)
Inductive Event : Type :=
  | UsernameChange (value : string)
  | LanguageChange (value : string)
  | EnterClick
  | LogoutClick
  | FarmNameChange (value : string)
  | CropChange (value : string)
  | AreaChange (value : number)
  | PredictClick.

(** The screen that renders the control of an event: the language select is
    on both. *)
Definition enabled (e : Event) (s : State.t) : bool :=
  match e, screen s with
  | LanguageChange _, _ => true
  | UsernameChange _, Login => true
  | EnterClick, Login => true
  | LogoutClick, Dashboard => true
  | FarmNameChange _, Dashboard => true
  | CropChange _, Dashboard => true
  | AreaChange _, Dashboard => true
  | PredictClick, Dashboard => true
  | _, _ => false
  end.

(** The handler of an event, and whether it stored a new [user] or [farm]
    object, which makes the effect run after the render. *)
Definition handle (e : Event) (s : State.t) : State.t * bool :=
  match e with
  | UsernameChange value =>
      (setUser (Some {| User.id := value; User.name := None |}) s, true)
  | LanguageChange value => (setLanguage value s, false)
  | EnterClick =>
      match State.user s with
      | Some user =>
          if truthy (User.id user)
          then (setUser (Some {| User.id := User.id user;
                                 User.name := Some ("Farmer " +:+ User.id user) |})
                        s, true)
          else (s, false)
      | None => (s, false)
      end
  | LogoutClick => (setUser None s, true)
  | FarmNameChange value =>
      (setFarm {| Farm.name := value; Farm.crop := Farm.crop (State.farm s);
                  Farm.areaHa := Farm.areaHa (State.farm s) |} s, true)
  | CropChange value =>
      (setFarm {| Farm.name := Farm.name (State.farm s); Farm.crop := value;
                  Farm.areaHa := Farm.areaHa (State.farm s) |} s, true)
  | AreaChange value =>
      (setFarm {| Farm.name := Farm.name (State.farm s);
                  Farm.crop := Farm.crop (State.farm s);
                  Farm.areaHa := value |} s, true)
  | PredictClick => (fetchAllData s, false)
  end.

Definition step (e : Event) (s : State.t) : State.t :=
  let (s', changed) := handle e s in
  if changed then useEffect s' else s'.

(** The states a user can bring the component to. *)
Inductive reachable : State.t -> Prop :=
  | reachable_initial : reachable initial
  | reachable_step (e : Event) (s : State.t) :
      reachable s -> enabled e s = true -> reachable (step e s).

(** ** Invariants the statements use *)

(** No entry of either dictionary is empty, and none is itself a key. *)
Definition entry_ok (k v : string) : Prop :=
  truthy v = true /\ dict_en !! v = None /\ dict_hi !! v = None.

#[local] Instance entry_ok_dec (k v : string) : Decision (entry_ok k v).
Proof. unfold entry_ok. apply _. Defined.

(** When there is a user object, the state is what a fetch leaves: a fetch
    changes nothing in it. *)
Definition fetched (s : State.t) : Prop :=
  is_Some (State.user s) -> fetchAllData s = s.

(** The name of a user object, once there is one, is "Farmer " and the id,
    and the id is not empty. *)
Definition named_by_id (s : State.t) : Prop :=
  forall (u : User.t) (n : string),
    State.user s = Some u -> User.name u = Some n ->
    n = "Farmer " +:+ User.id u /\ truthy (User.id u) = true.

(** ** Lemmas on the JavaScript fragment *)

Lemma lt_number_spec (x y : number) : lt_number x y = true <-> x < y.
Proof.
  unfold lt_number. rewrite Qlt_alt.
  destruct (x ?= y); split; intros H; congruence.
Qed.

Lemma lt_number_false (x y : number) : lt_number x y = false <-> y <= x.
Proof.
  rewrite <- not_true_iff_false, lt_number_spec. split.
  - apply Qnot_lt_le.
  - apply Qle_not_lt.
Qed.

Lemma toFixed_2 (x : number) :
  toFixed x 2 = Normal {| minus := lt_number x 0;
                          scaled := Qfloor ((if lt_number x 0 then - x else x)
                                            * inject_Z (10 ^ 2)%Z + (1 # 2));
                          places := 2 |}.
Proof. reflexivity. Qed.

Example toFixed_101_throws : toFixed 1 101 = Throw RangeError.
Proof. reflexivity. Qed.

Example fixed2_tie_up : fixed2 0.125 == 0.13 /\ fixed2 (- 0.125) == - 0.13.
Proof. split; reflexivity. Qed.

Example fixed2_small_negative : fixed2 (- 0.001) == 0.
Proof. reflexivity. Qed.

Lemma fakePredictAPI_fulfilled (features : Features) :
  fakePredictAPI features =
  Fulfilled {| yieldTons := fixed2 (base features * moistureFactor features
                                    * phFactor features * weatherFactor features
                                    * areaHa features);
               confidence := 0.82 |}.
Proof. reflexivity. Qed.

Lemma fixed2_nonneg_eq (x : number) :
  0 <= x -> fixed2 x == inject_Z (Qfloor (x * 100 + (1 # 2))) / 100.
Proof.
  intros Hx. unfold fixed2, unary_plus. cbn [minus scaled places].
  apply lt_number_false in Hx. rewrite Hx. reflexivity.
Qed.

Lemma fixed2_neg_eq (x : number) :
  x < 0 -> fixed2 x == - (inject_Z (Qfloor (- x * 100 + (1 # 2))) / 100).
Proof.
  intros Hx. unfold fixed2, unary_plus. cbn [minus scaled places].
  apply lt_number_spec in Hx. rewrite Hx. reflexivity.
Qed.

(** [lra] does not read a quotient: divisions by the literals of the source
    become products first. *)
Ltac qdiv :=
  unfold Qdiv in *;
  change (/ 10) with (1 # 10) in *;
  change (/ 50) with (1 # 50) in *;
  change (/ 100) with (1 # 100) in *;
  change (inject_Z 1) with 1 in *.

Ltac floor_bounds x :=
  let Hlo := fresh "Hlo" in
  let Hhi := fresh "Hhi" in
  pose proof (Qfloor_le x) as Hlo;
  pose proof (Qlt_floor x) as Hhi;
  rewrite inject_Z_plus in Hhi.


Lemma floor_le_inject (x y : Q) :
  x <= y -> inject_Z (Qfloor x) <= inject_Z (Qfloor y).
Proof.
  intros Hxy. rewrite <- Zle_Qle. apply Qfloor_resp_le. exact Hxy.
Qed.

Lemma fixed2_hundredths (x : number) :
  exists n : Z, fixed2 x == inject_Z n / 100.
Proof.
  destruct (Qlt_le_dec x 0) as [Hx | Hx].
  - exists (- Qfloor (- x * 100 + (1 # 2)))%Z.
    rewrite (fixed2_neg_eq x Hx), inject_Z_opp. field.
  - exists (Qfloor (x * 100 + (1 # 2))).
    apply (fixed2_nonneg_eq x Hx).
Qed.


Lemma fixed2_nonneg (x : number) : 0 <= x -> 0 <= fixed2 x.
Proof.
  intros Hx. rewrite (fixed2_nonneg_eq x Hx).
  assert (inject_Z (Qfloor 0) <= inject_Z (Qfloor (x * 100 + (1 # 2)))) as Hn
    by (apply floor_le_inject; lra).
  change (inject_Z (Qfloor 0)) with 0 in Hn. qdiv. lra.
Qed.

Lemma fixed2_nonpos (x : number) : x <= 0 -> fixed2 x <= 0.
Proof.
  intros Hx. destruct (Qlt_le_dec x 0) as [Hlt | Hge].
  - rewrite (fixed2_neg_eq x Hlt).
    assert (inject_Z (Qfloor 0) <= inject_Z (Qfloor (- x * 100 + (1 # 2))))
      as Hn by (apply floor_le_inject; lra).
    change (inject_Z (Qfloor 0)) with 0 in Hn. qdiv. lra.
  - rewrite (fixed2_nonneg_eq x Hge).
    assert (inject_Z (Qfloor (x * 100 + (1 # 2))) <= inject_Z (Qfloor (1 # 2)))
      as Hn by (apply floor_le_inject; lra).
    change (inject_Z (Qfloor (1 # 2))) with 0 in Hn. qdiv. lra.
Qed.

(** Rounding to hundredths keeps the order. *)
Lemma fixed2_mono (x y : number) : x <= y -> fixed2 x <= fixed2 y.
Proof.
  intros Hxy.
  destruct (Qlt_le_dec x 0) as [Hx | Hx]; destruct (Qlt_le_dec y 0) as [Hy | Hy].
  - rewrite (fixed2_neg_eq x Hx), (fixed2_neg_eq y Hy).
    assert (inject_Z (Qfloor (- y * 100 + (1 # 2)))
            <= inject_Z (Qfloor (- x * 100 + (1 # 2)))) as Hn
      by (apply floor_le_inject; lra).
    qdiv. lra.
  - apply Qle_trans with 0.
    + apply fixed2_nonpos. lra.
    + apply fixed2_nonneg. exact Hy.
  - lra.
  - rewrite (fixed2_nonneg_eq x Hx), (fixed2_nonneg_eq y Hy).
    assert (inject_Z (Qfloor (x * 100 + (1 # 2)))
            <= inject_Z (Qfloor (y * 100 + (1 # 2)))) as Hn
      by (apply floor_le_inject; lra).
    qdiv. lra.
Qed.

(** ** Lemmas on the factors of the estimate *)

Lemma baseByCrop_other (c : string) :
  c <> "wheat" -> c <> "rice" -> c <> "maize" -> baseByCrop !! c = None.
Proof.
  intros Hw Hr Hm. unfold baseByCrop.
  rewrite !lookup_insert_ne by congruence.
  apply lookup_singleton_ne. congruence.
Qed.

Lemma base_table (features : Features) :
  base features = Spec.base (crop features).
Proof.
  unfold base, Spec.base.
  destruct (decide (crop features = "wheat")) as [-> | Hw]; [reflexivity |].
  destruct (decide (crop features = "rice")) as [-> | Hr]; [reflexivity |].
  destruct (decide (crop features = "maize")) as [-> | Hm]; [reflexivity |].
  rewrite baseByCrop_other by assumption. reflexivity.
Qed.

Lemma base_pos (features : Features) : 0 < base features.
Proof.
  rewrite base_table. unfold Spec.base.
  repeat case_decide; reflexivity.
Qed.

Example base_cotton : base (mockFeatures "cotton" 1) = 2.5.
Proof. reflexivity. Qed.

Ltac minmax :=
  unfold Math.max, Math.min, Math.abs in *;
  repeat match goal with
  | |- context [Qmin ?a ?b] =>
      let H := fresh "Hmin" in
      destruct (Q.min_spec a b) as [[? H] | [? H]];
      generalize dependent (Qmin a b); intros
  | |- context [Qmax ?a ?b] =>
      let H := fresh "Hmax" in
      destruct (Q.max_spec a b) as [[? H] | [? H]];
      generalize dependent (Qmax a b); intros
  end.

Lemma moistureFactor_bounds (features : Features) :
  0.8 <= moistureFactor features <= 1.2.
Proof. unfold moistureFactor. minmax; split; lra. Qed.

Example moistureFactor_dry_wet (c : string) (a p o : number) (w : Weather) :
  moistureFactor {| crop := c; areaHa := a; weather := w;
                    soil := {| ph := p; organicMatterPct := o;
                               moisturePct := 0 |} |} == 0.8
  /\ moistureFactor {| crop := c; areaHa := a; weather := w;
                       soil := {| ph := p; organicMatterPct := o;
                                  moisturePct := 100 |} |} == 1.2.
Proof. split; reflexivity. Qed.

Lemma moistureFactor_clamp (features : Features) :
  moistureFactor features == Spec.moistureFactor (moisturePct (soil features)).
Proof.
  unfold moistureFactor, Spec.moistureFactor, Spec.clamp.
  set (x := 0.5 + moisturePct (soil features) / 50).
  destruct (lt_number x 0.8) eqn:Hlo.
  - apply lt_number_spec in Hlo. minmax; lra.
  - apply lt_number_false in Hlo.
    destruct (lt_number 1.2 x) eqn:Hhi.
    + apply lt_number_spec in Hhi. minmax; lra.
    + apply lt_number_false in Hhi. minmax; lra.
Qed.

Lemma weatherFactor_bounds (features : Features) :
  0.7 <= weatherFactor features <= 1.
Proof.
  unfold weatherFactor.
  assert (0 <= Math.abs (tempC (weather features) - 25) / 50) as Habs.
  { pose proof (Qabs_nonneg (tempC (weather features) - 25)) as H.
    unfold Math.abs. qdiv. lra. }
  revert Habs. generalize (Math.abs (tempC (weather features) - 25) / 50).
  intros q Hq. minmax; split; lra.
Qed.

Lemma phFactor_spec (features : Features) :
  phFactor features = Spec.phFactor (ph (soil features)).
Proof. reflexivity. Qed.

Lemma weatherFactor_spec (features : Features) :
  weatherFactor features = Spec.weatherFactor (tempC (weather features)).
Proof. reflexivity. Qed.

(** The product the code rounds is the product the specification rounds. *)
Lemma unrounded_spec (features : Features) :
  base features * moistureFactor features * phFactor features
  * weatherFactor features * areaHa features == Spec.unrounded features.
Proof.
  unfold Spec.unrounded.
  rewrite base_table, moistureFactor_clamp, phFactor_spec, weatherFactor_spec.
  reflexivity.
Qed.



Lemma lt_number_comp (x x' y : number) :
  x == x' -> lt_number x y = lt_number x' y.
Proof. intros Hx. unfold lt_number. rewrite Hx. reflexivity. Qed.

(** ** generateRecommendations: the four outcomes *)

Lemma generateRecommendations_cases (crop : string) (soil : Soil)
    (weather : Weather) :
  generateRecommendations crop soil weather =
  (if lt_number (moisturePct soil) 20 then irrigation_apply
   else irrigation_sufficient)
  :: (if lt_number (organicMatterPct soil) 2 then [fertilizer_compost] else [])
  ++ [pest_monitor].
Proof.
  unfold generateRecommendations, push.
  destruct (lt_number (moisturePct soil) 20);
    destruct (lt_number (organicMatterPct soil) 2); reflexivity.
Qed.

(** ** The estimate *)


(** C2, as stated (wheat, 1 ha, pH 6.5, organic matter 1.8, moisture 24,
    29 degrees resolves to 2.88 tonnes), does not hold: the product is
    2.88512, which rounds to 2.89. *)
Lemma fakePredictAPI_mock_not_2_88 :
  ~ (exists y : Prediction,
       fakePredictAPI (mockFeatures "wheat" 1) = Fulfilled y
       /\ yieldTons y == 2.88 /\ confidence y == 0.82).
Proof.
  intros (y & Hy & Hyield & _).
  rewrite fakePredictAPI_fulfilled in Hy. injection Hy as <-.
  cbn [yieldTons] in Hyield. vm_compute in Hyield. discriminate Hyield.
Qed.

(** C2, amended: for wheat on 1 ha with pH 6.5, organic matter 1.8,
    moisture 24 and 29 degrees, whatever the rain and the condition label,
    the factors are 0.98, 1 and 0.92, the product is 2.88512, and the
    prediction is 2.89 tonnes with confidence 0.82. *)
Theorem fakePredictAPI_mock_2_89 (rain : number) (label : string) :
  let features :=
    {| crop := "wheat"; areaHa := 1;
       soil := {| ph := 6.5; organicMatterPct := 1.8; moisturePct := 24 |};
       weather := {| tempC := 29; rainNext7DaysMm := rain;
                     condition := label |} |} in
  moistureFactor features == 0.98
  /\ phFactor features == 1
  /\ weatherFactor features == 0.92
  /\ Spec.unrounded features == 2.88512
  /\ exists y : Prediction,
       fakePredictAPI features = Fulfilled y
       /\ yieldTons y == 2.89 /\ confidence y == 0.82.
Proof.
  cbn zeta. repeat split; try reflexivity.
  eexists. split; [apply fakePredictAPI_fulfilled |].
  split; reflexivity.
Qed.

(** In binary64 the product at the same input is within 10^-15 of 2.88512,
    far from the tie at 2.885: [toFixed(2)] prints 2.89 there too. *)
Example binary64_mock_product :
  exists v : Q,
    Binary64.exact (Binary64.unrounded "wheat" 1 6.5 24 29)%float = Some v
    /\ Qabs (v - 2.88512) < 1 # 10 ^ 15.
Proof. eexists. split; [vm_compute; reflexivity | reflexivity]. Qed.


(** In binary64 the product at pH 20 is within 10^-15 of -1.009792, far from
    the tie at -1.005: [toFixed(2)] prints -1.01 there too. *)
Example binary64_negative_product :
  exists v : Q,
    Binary64.exact (Binary64.unrounded "wheat" 1 20 24 29)%float = Some v
    /\ Qabs (v + 1.009792) < 1 # 10 ^ 15.
Proof. eexists. split; [vm_compute; reflexivity | reflexivity]. Qed.


(** The product has the sign of pH factor times area: the other three
    factors are positive. *)
Lemma unrounded_nonneg (features : Features) :
  0 <= phFactor features * areaHa features -> 0 <= Spec.unrounded features.
Proof.
  intros Hsign. rewrite <- unrounded_spec.
  pose proof (base_pos features) as Hb.
  pose proof (moistureFactor_bounds features) as [Hm _].
  pose proof (weatherFactor_bounds features) as [Hw _].
  assert (0 <= base features * moistureFactor features * weatherFactor features)
    as Hpos.
  { apply Qmult_le_0_compat; [apply Qmult_le_0_compat |]; lra. }
  setoid_replace (base features * moistureFactor features * phFactor features
                  * weatherFactor features * areaHa features)
    with ((base features * moistureFactor features * weatherFactor features)
          * (phFactor features * areaHa features))
    using relation Qeq by ring.
  apply Qmult_le_0_compat; assumption.
Qed.

(** With a nonnegative area and a nonnegative pH factor the prediction is
    nonnegative. *)
Lemma fakePredictAPI_nonneg (features : Features) :
  0 <= areaHa features -> 0 <= phFactor features ->
  exists y : Prediction,
    fakePredictAPI features = Fulfilled y /\ 0 <= yieldTons y.
Proof.
  intros Ha Hp. eexists. split; [apply fakePredictAPI_fulfilled |].
  cbn [yieldTons]. apply fixed2_nonneg. rewrite unrounded_spec.
  apply unrounded_nonneg, Qmult_le_0_compat; assumption.
Qed.

(** C7: for every temperature the weather factor of the estimate,
    1 - min(0.3, |tempC - 25| / 50), is at least 0.7. *)
Theorem weatherFactor_at_least_0_7 (features : Features) :
  0.7 <= weatherFactor features.
Proof. apply weatherFactor_bounds. Qed.



(** ** The recommendations *)

(** C3: for every input the recommendations have 2 or 3 entries, the last
    entry is the pest recommendation and it is the only one of its
    category, and the categories come in the order irrigation, then
    fertilizer or nothing, then pest. *)
Theorem generateRecommendations_shape (crop : string) (soil : Soil)
    (weather : Weather) :
  let recs := generateRecommendations crop soil weather in
  (2 <= length recs <= 3)%nat
  /\ last recs = Some pest_monitor
  /\ of_type "pest" recs = [pest_monitor]
  /\ (type <$> recs = ["irrigation"; "pest"]
      \/ type <$> recs = ["irrigation"; "fertilizer"; "pest"]).
Proof.
  cbn zeta. rewrite generateRecommendations_cases.
  destruct (lt_number (moisturePct soil) 20);
    destruct (lt_number (organicMatterPct soil) 2);
    cbn [app length]; (split; [lia |]);
    (split; [reflexivity |]); (split; [reflexivity |]);
    first [left; reflexivity | right; reflexivity].
Qed.

(** C4: for every input there is exactly one irrigation recommendation; it
    is the shortage message if and only if moisturePct < 20 and the
    sufficiency message otherwise.  At 19 it is the shortage message, at
    20 the sufficiency message. *)
Theorem generateRecommendations_irrigation (crop : string) (soil : Soil)
    (weather : Weather) :
  (exists a : Recommendation,
     of_type "irrigation" (generateRecommendations crop soil weather) = [a]
     /\ (a = irrigation_apply <-> moisturePct soil < 20)
     /\ (a = irrigation_sufficient <-> 20 <= moisturePct soil))
  /\ of_type "irrigation"
       (generateRecommendations crop
          {| ph := ph soil; organicMatterPct := organicMatterPct soil;
             moisturePct := 19 |} weather) = [irrigation_apply]
  /\ of_type "irrigation"
       (generateRecommendations crop
          {| ph := ph soil; organicMatterPct := organicMatterPct soil;
             moisturePct := 20 |} weather) = [irrigation_sufficient].
Proof.
  split; [| split].
  - rewrite generateRecommendations_cases.
    destruct (lt_number (moisturePct soil) 20) eqn:Hm.
    + exists irrigation_apply. apply lt_number_spec in Hm.
      split; [destruct (lt_number (organicMatterPct soil) 2); reflexivity |].
      split; split; intros H; try reflexivity; try assumption.
      * discriminate H.
      * lra.
    + exists irrigation_sufficient. apply lt_number_false in Hm.
      split; [destruct (lt_number (organicMatterPct soil) 2); reflexivity |].
      split; split; intros H; try reflexivity; try assumption.
      * discriminate H.
      * lra.
  - rewrite generateRecommendations_cases. cbn [moisturePct organicMatterPct].
    destruct (lt_number (organicMatterPct soil) 2); reflexivity.
  - rewrite generateRecommendations_cases. cbn [moisturePct organicMatterPct].
    destruct (lt_number (organicMatterPct soil) 2); reflexivity.
Qed.

(** C5: for every input the recommendations contain a fertilizer
    recommendation if and only if organicMatterPct < 2 (strictly), there is
    never more than one, and at exactly 2.0 there is none. *)
Theorem generateRecommendations_fertilizer (crop : string) (soil : Soil)
    (weather : Weather) :
  ((exists r : Recommendation,
      r ∈ generateRecommendations crop soil weather /\ type r = "fertilizer")
   <-> organicMatterPct soil < 2)
  /\ (length (of_type "fertilizer" (generateRecommendations crop soil weather))
      <= 1)%nat
  /\ of_type "fertilizer"
       (generateRecommendations crop
          {| ph := ph soil; organicMatterPct := 2.0;
             moisturePct := moisturePct soil |} weather) = [].
Proof.
  split; [| split].
  - rewrite generateRecommendations_cases.
    destruct (lt_number (organicMatterPct soil) 2) eqn:Ho.
    + apply lt_number_spec in Ho. split; [intros _; exact Ho |].
      intros _. exists fertilizer_compost. split; [| reflexivity].
      set_solver.
    + apply lt_number_false in Ho. split; [| intros H; exfalso; lra].
      intros (r & Hin & Hty). exfalso.
      destruct (lt_number (moisturePct soil) 20);
        cbn [app] in Hin;
        repeat (apply elem_of_cons in Hin as [-> | Hin]; [discriminate Hty |]);
        apply elem_of_nil in Hin; exact Hin.
  - rewrite generateRecommendations_cases.
    destruct (lt_number (moisturePct soil) 20);
      destruct (lt_number (organicMatterPct soil) 2); vm_compute; lia.
  - rewrite generateRecommendations_cases. cbn [moisturePct organicMatterPct].
    destruct (lt_number (moisturePct soil) 20); reflexivity.
Qed.

(** C8: two calls whose soil samples are equal return equal
    recommendations, whatever the crops and the weather snapshots. *)
Theorem generateRecommendations_soil_only (crop1 crop2 : string)
    (soil1 soil2 : Soil) (weather1 weather2 : Weather) :
  same_soil soil1 soil2 ->
  generateRecommendations crop1 soil1 weather1
  = generateRecommendations crop2 soil2 weather2.
Proof.
  intros (_ & Ho & Hm). rewrite !generateRecommendations_cases.
  rewrite (lt_number_comp _ _ 20 Hm), (lt_number_comp _ _ 2 Ho). reflexivity.
Qed.

Lemma generateRecommendations_soil_only_witness :
  generateRecommendations "wheat" mockSoil mockWeather
  = generateRecommendations "rice"
      {| ph := 13 # 2; organicMatterPct := 9 # 5; moisturePct := 48 # 2 |}
      {| tempC := 40; rainNext7DaysMm := 0; condition := "Sunny" |}.
Proof.
  apply (generateRecommendations_soil_only "wheat" "rice" mockSoil _
           mockWeather _).
  repeat split; reflexivity.
Defined.

(** ** Totality *)


(** ** More on the estimate *)

Lemma fixed2_comp (x y : number) : x == y -> fixed2 x == fixed2 y.
Proof.
  intros Hxy. apply Qle_antisym; apply fixed2_mono; rewrite Hxy; apply Qle_refl.
Qed.

Lemma floor_half (k : Z) : Qfloor (inject_Z k + (1 # 2)) = k.
Proof.
  floor_bounds (inject_Z k + (1 # 2)). qdiv.
  assert (Qfloor (inject_Z k + (1 # 2)) < k + 1)%Z as Hup.
  { rewrite Zlt_Qlt, inject_Z_plus. change (inject_Z 1) with 1. lra. }
  assert (k < Qfloor (inject_Z k + (1 # 2)) + 1)%Z as Hdown.
  { rewrite Zlt_Qlt, inject_Z_plus. change (inject_Z 1) with 1. lra. }
  lia.
Qed.

(** A whole number of hundredths is its own rounding. *)
Lemma fixed2_of_hundredths (k : Z) :
  fixed2 (inject_Z k / 100) == inject_Z k / 100.
Proof.
  destruct (Z_lt_le_dec k 0) as [Hk | Hk].
  - assert (inject_Z k / 100 < 0) as Hneg.
    { rewrite Zlt_Qlt in Hk. change (inject_Z 0) with 0 in Hk. qdiv. lra. }
    rewrite (fixed2_neg_eq _ Hneg).
    assert (- (inject_Z k / 100) * 100 + (1 # 2) == inject_Z (- k) + (1 # 2))
      as -> by (rewrite inject_Z_opp; field).
    rewrite floor_half, inject_Z_opp. field.
  - assert (0 <= inject_Z k / 100) as Hpos.
    { rewrite Zle_Qle in Hk. change (inject_Z 0) with 0 in Hk. qdiv. lra. }
    rewrite (fixed2_nonneg_eq _ Hpos).
    assert (inject_Z k / 100 * 100 + (1 # 2) == inject_Z k + (1 # 2))
      as -> by field.
    rewrite floor_half. reflexivity.
Qed.

Lemma fixed2_idempotent (x : number) : fixed2 (fixed2 x) == fixed2 x.
Proof.
  destruct (fixed2_hundredths x) as [n Hn].
  rewrite (fixed2_comp _ _ Hn), Hn. apply fixed2_of_hundredths.
Qed.




(** The prediction reads the crop, the area, the pH, the moisture and the
    temperature, and nothing else: two calls that agree on these return the
    same prediction, whatever the organic matter, the rain of the next 7
    days and the condition label are. *)
Theorem fakePredictAPI_unread_inputs (f1 f2 : Features) :
  crop f1 = crop f2 ->
  areaHa f1 == areaHa f2 ->
  ph (soil f1) == ph (soil f2) ->
  moisturePct (soil f1) == moisturePct (soil f2) ->
  tempC (weather f1) == tempC (weather f2) ->
  exists y1 y2 : Prediction,
    fakePredictAPI f1 = Fulfilled y1
    /\ fakePredictAPI f2 = Fulfilled y2
    /\ yieldTons y1 == yieldTons y2
    /\ confidence y1 == confidence y2.
Proof.
  intros Hc Ha Hp Hm Ht. do 2 eexists.
  split; [apply fakePredictAPI_fulfilled |].
  split; [apply fakePredictAPI_fulfilled |].
  cbn [yieldTons confidence]. split; [| reflexivity].
  apply fixed2_comp.
  unfold base, moistureFactor, phFactor, weatherFactor, Math.max, Math.min,
    Math.abs.
  rewrite Hc, Ha, Hp, Hm, Ht. reflexivity.
Qed.

Lemma fakePredictAPI_unread_inputs_witness :
  exists y1 y2 : Prediction,
    fakePredictAPI (mockFeatures "rice" 2) = Fulfilled y1
    /\ fakePredictAPI
         {| crop := "rice"; areaHa := 4 # 2;
            soil := {| ph := 13 # 2; organicMatterPct := 5;
                       moisturePct := 48 # 2 |};
            weather := {| tempC := 58 # 2; rainNext7DaysMm := 0;
                          condition := "Sunny" |} |} = Fulfilled y2
    /\ yieldTons y1 == yieldTons y2
    /\ confidence y1 == confidence y2.
Proof.
  apply (fakePredictAPI_unread_inputs (mockFeatures "rice" 2)
           {| crop := "rice"; areaHa := 4 # 2;
              soil := {| ph := 13 # 2; organicMatterPct := 5;
                         moisturePct := 48 # 2 |};
              weather := {| tempC := 58 # 2; rainNext7DaysMm := 0;
                            condition := "Sunny" |} |});
    reflexivity.
Defined.


(** The moisture factor is 0.8 up to 15 percent moisture, 1.2 from 35
    percent on, and 0.5 + moisturePct / 50 in between. *)
Theorem moistureFactor_piecewise (features : Features) :
  moistureFactor features ==
  if lt_number 15 (moisturePct (soil features))
  then if lt_number (moisturePct (soil features)) 35
       then 0.5 + moisturePct (soil features) / 50
       else 1.2
  else 0.8.
Proof.
  unfold moistureFactor.
  destruct (lt_number 15 _) eqn:Hlo.
  - apply lt_number_spec in Hlo.
    destruct (lt_number _ 35) eqn:Hhi.
    + apply lt_number_spec in Hhi. qdiv. minmax; lra.
    + apply lt_number_false in Hhi. qdiv. minmax; lra.
  - apply lt_number_false in Hlo. qdiv. minmax; lra.
Qed.

(** The weather factor is 1 - |tempC - 25| / 50 within 15 degrees of 25 and
    0.7 from 15 degrees away on. *)
Theorem weatherFactor_piecewise (features : Features) :
  weatherFactor features ==
  if lt_number (Qabs (tempC (weather features) - 25)) 15
  then 1 - Qabs (tempC (weather features) - 25) / 50
  else 0.7.
Proof.
  unfold weatherFactor, Math.abs.
  generalize (Qabs (tempC (weather features) - 25)). intros d.
  destruct (lt_number d 15) eqn:Hd.
  - apply lt_number_spec in Hd. qdiv. minmax; lra.
  - apply lt_number_false in Hd. qdiv. minmax; lra.
Qed.




(** Printing the returned [yieldTons] with [toFixed(2)] again and reading it
    back gives the same Number: the prediction is already a whole number of
    hundredths. *)
Theorem fakePredictAPI_yield_reprints (features : Features) :
  exists (y : Prediction) (s : Numeral),
    fakePredictAPI features = Fulfilled y
    /\ toFixed (yieldTons y) 2 = Normal s
    /\ unary_plus s == yieldTons y.
Proof.
  do 2 eexists.
  split; [apply fakePredictAPI_fulfilled |].
  split; [apply toFixed_2 |].
  cbn [yieldTons]. apply fixed2_idempotent.
Qed.

(** ** More on the recommendations *)

(** Two calls return the same recommendations exactly when their moisture
    readings are on the same side of 20 and their organic matter readings
    on the same side of 2. *)
Theorem generateRecommendations_equal_iff (crop1 crop2 : string)
    (soil1 soil2 : Soil) (weather1 weather2 : Weather) :
  generateRecommendations crop1 soil1 weather1
  = generateRecommendations crop2 soil2 weather2
  <-> ((moisturePct soil1 < 20 <-> moisturePct soil2 < 20)
       /\ (organicMatterPct soil1 < 2 <-> organicMatterPct soil2 < 2)).
Proof.
  rewrite <- !lt_number_spec, <- !Bool.eq_iff_eq_true.
  rewrite !generateRecommendations_cases.
  destruct (lt_number (moisturePct soil1) 20),
    (lt_number (moisturePct soil2) 20),
    (lt_number (organicMatterPct soil1) 2),
    (lt_number (organicMatterPct soil2) 2);
    split; intros H; first [discriminate H | destruct H; discriminate | idtac];
    try (split; reflexivity); try reflexivity.
Qed.

(** ** The localization map *)















(** ** The component *)

(** The features [fetchAllData] sends for a farm. *)
Lemma fetchAllData_eq (s : State.t) :
  fetchAllData s =
  {| State.user := State.user s; State.language := State.language s;
     State.loading := false; State.farm := State.farm s;
     State.prediction :=
       Some {| yieldTons :=
                 fixed2 (base (mockFeatures (Farm.crop (State.farm s))
                                            (Farm.areaHa (State.farm s)))
                         * moistureFactor (mockFeatures "wheat" 1)
                         * phFactor (mockFeatures "wheat" 1)
                         * weatherFactor (mockFeatures "wheat" 1)
                         * Farm.areaHa (State.farm s));
               confidence := 0.82 |};
     State.weather := Some mockWeather; State.soil := Some mockSoil;
     State.recommendations :=
       [irrigation_sufficient; fertilizer_compost; pest_monitor];
     State.console := State.console s |}.
Proof. reflexivity. Qed.

Lemma fetchAllData_idem (s : State.t) :
  fetchAllData (fetchAllData s) = fetchAllData s.
Proof. rewrite !fetchAllData_eq. reflexivity. Qed.

Lemma fetchAllData_setLanguage (v : string) (s : State.t) :
  fetchAllData (setLanguage v s) = setLanguage v (fetchAllData s).
Proof. reflexivity. Qed.

Lemma screen_fetchAllData (s : State.t) : screen (fetchAllData s) = screen s.
Proof. reflexivity. Qed.

Lemma screen_Dashboard_user (s : State.t) :
  screen s = Dashboard ->
  exists (u : User.t) (n : string),
    State.user s = Some u /\ User.name u = Some n /\ truthy n = true.
Proof.
  unfold screen. intros H.
  destruct (State.user s) as [u |]; [| discriminate H].
  destruct (User.name u) as [n |] eqn:Hn; [| discriminate H].
  destruct (truthy n) eqn:Ht; [| discriminate H].
  exists u, n. auto.
Qed.

Lemma enabled_Dashboard_user (e : Event) (s : State.t) :
  enabled e s = true ->
  match e with
  | UsernameChange _ | LanguageChange _ | EnterClick => True
  | _ => is_Some (State.user s)
  end.
Proof.
  intros He. destruct e; try exact I; unfold enabled in He;
    destruct (screen s) eqn:Hscr; try discriminate He;
    destruct (screen_Dashboard_user s Hscr) as (u & n & Hu & _);
    rewrite Hu; eexists; reflexivity.
Qed.

Lemma useEffect_user (s : State.t) :
  is_Some (State.user s) -> useEffect s = fetchAllData s.
Proof. intros [u Hu]. unfold useEffect. rewrite Hu. reflexivity. Qed.

Lemma step_fetched (e : Event) (s : State.t) :
  enabled e s = true -> fetched s -> fetched (step e s).
Proof.
  unfold fetched. intros He Hs.
  pose proof (enabled_Dashboard_user e s He) as Hu.
  destruct e; unfold step; cbn [handle].
  - intros _. apply fetchAllData_idem.
  - cbn [setLanguage State.user]. intros Hu'.
    rewrite fetchAllData_setLanguage, (Hs Hu'). reflexivity.
  - destruct (State.user s) as [u |] eqn:Hus;
      [| cbn [useEffect]; rewrite Hus; exact Hs].
    destruct (truthy (User.id u)); [| rewrite Hus; exact Hs].
    intros _. apply fetchAllData_idem.
  - intros [u Hnone]. discriminate Hnone.
  - rewrite useEffect_user by exact Hu. intros _. apply fetchAllData_idem.
  - rewrite useEffect_user by exact Hu. intros _. apply fetchAllData_idem.
  - rewrite useEffect_user by exact Hu. intros _. apply fetchAllData_idem.
  - intros _. apply fetchAllData_idem.
Qed.

Lemma reachable_fetched (s : State.t) : reachable s -> fetched s.
Proof.
  induction 1 as [| e s Hr IH He].
  - intros [u Hu]. discriminate Hu.
  - apply step_fetched; assumption.
Qed.

Lemma useEffect_frame (s : State.t) :
  State.user (useEffect s) = State.user s
  /\ State.console (useEffect s) = State.console s
  /\ (State.loading s = false -> State.loading (useEffect s) = false).
Proof.
  unfold useEffect. destruct (State.user s) as [u |] eqn:Hu.
  - split; [exact Hu |]. split; [reflexivity |]. intros _. reflexivity.
  - split; [exact Hu |]. split; [reflexivity |]. intros H. exact H.
Qed.

(** What a step does to the user object. *)
Lemma step_user (e : Event) (s : State.t) :
  State.user (step e s) = State.user s
  \/ State.user (step e s) = None
  \/ (exists v, State.user (step e s)
                = Some {| User.id := v; User.name := None |})
  \/ (exists v, truthy v = true
                /\ State.user (step e s)
                   = Some {| User.id := v;
                             User.name := Some ("Farmer " +:+ v) |}).
Proof.
  unfold step. destruct e; cbn [handle];
    try (rewrite (proj1 (useEffect_frame _))); cbn [setUser setFarm State.user];
    try (left; reflexivity).
  - right; right; left. eexists. reflexivity.
  - destruct (State.user s) as [u |] eqn:Hu; [| left; exact Hu].
    destruct (truthy (User.id u)) eqn:Hid; [| left; exact Hu].
    rewrite (proj1 (useEffect_frame _)). cbn [setUser State.user].
    right; right; right. exists (User.id u). auto.
  - right; left. reflexivity.
Qed.

Lemma step_console_loading (e : Event) (s : State.t) :
  State.console (step e s) = State.console s
  /\ (State.loading s = false -> State.loading (step e s) = false).
Proof.
  unfold step. destruct e; cbn [handle];
    try (split; [rewrite (proj1 (proj2 (useEffect_frame _))); reflexivity
                | intros H; apply useEffect_frame; exact H]);
    try (split; [reflexivity | intros H; first [exact H | reflexivity]]).
  destruct (State.user s) as [u |]; [| auto].
  destruct (truthy (User.id u)); [| auto].
  split; [rewrite (proj1 (proj2 (useEffect_frame _))); reflexivity |].
  intros H. apply useEffect_frame. exact H.
Qed.

Lemma reachable_named_by_id (s : State.t) : reachable s -> named_by_id s.
Proof.
  induction 1 as [| e s Hr IH He]; intros u n Hu Hn.
  - discriminate Hu.
  - destruct (step_user e s) as [Hsame | [Hnone | [[v Hv] | (v & Hid & Hv)]]].
    + rewrite Hsame in Hu. exact (IH u n Hu Hn).
    + rewrite Hnone in Hu. discriminate Hu.
    + rewrite Hv in Hu. injection Hu as <-. discriminate Hn.
    + rewrite Hv in Hu. injection Hu as <-. cbn [User.name User.id] in *.
      injection Hn as <-. auto.
Qed.


(** The recommendations [fetchAllData] stores are the same three for every
    farm: moisture sufficient, compost, pest monitoring. *)
Theorem fetchAllData_recommendations (s : State.t) :
  State.recommendations (fetchAllData s)
  = [irrigation_sufficient; fertilizer_compost; pest_monitor].
Proof. rewrite fetchAllData_eq. reflexivity. Qed.

(** [fetchAllData] leaves the user, the language and the farm as they are,
    and running it a second time changes nothing more. *)
Theorem fetchAllData_idempotent (s : State.t) :
  State.user (fetchAllData s) = State.user s
  /\ State.language (fetchAllData s) = State.language s
  /\ State.farm (fetchAllData s) = State.farm s
  /\ fetchAllData (fetchAllData s) = fetchAllData s.
Proof.
  split; [reflexivity |]. split; [reflexivity |]. split; [reflexivity |].
  apply fetchAllData_idem.
Qed.

(** The effect fetches as soon as a user object exists: after any change of
    the username field, even to the empty string, the data is loaded while
    the login screen is still shown. *)
Theorem username_change_fetches (value : string) (s : State.t) :
  screen (step (UsernameChange value) s) = Login
  /\ State.user (step (UsernameChange value) s)
     = Some {| User.id := value; User.name := None |}
  /\ State.weather (step (UsernameChange value) s) = Some mockWeather
  /\ State.soil (step (UsernameChange value) s) = Some mockSoil
  /\ is_Some (State.prediction (step (UsernameChange value) s)).
Proof.
  split; [reflexivity |]. split; [reflexivity |]. split; [reflexivity |].
  split; [reflexivity |]. eexists. reflexivity.
Qed.

(** On the login screen the Enter button leads to the dashboard exactly
    when a user object with a nonempty id exists; otherwise it changes
    nothing. *)
Theorem enter_click_iff (s : State.t) :
  screen s = Login ->
  (screen (step EnterClick s) = Dashboard
   <-> exists u : User.t, State.user s = Some u /\ truthy (User.id u) = true)
  /\ (screen (step EnterClick s) = Login -> step EnterClick s = s).
Proof.
  intros Hs. unfold step. cbn [handle].
  destruct (State.user s) as [u |] eqn:Hu.
  - destruct (truthy (User.id u)) eqn:Hid.
    + split.
      * split; [intros _; exists u; auto | intros _; reflexivity].
      * intros H. discriminate H.
    + split; [| reflexivity]. rewrite Hs. split; [discriminate |].
      intros (u' & Hu' & Hid'). injection Hu' as <-. congruence.
  - split; [| reflexivity]. rewrite Hs. split; [discriminate |].
    intros (u' & Hu' & _). discriminate Hu'.
Qed.

Lemma enter_click_iff_witness :
  (screen (step EnterClick (step (UsernameChange "42") initial)) = Dashboard
   <-> exists u : User.t,
         State.user (step (UsernameChange "42") initial) = Some u
         /\ truthy (User.id u) = true)
  /\ (screen (step EnterClick (step (UsernameChange "42") initial)) = Login ->
      step EnterClick (step (UsernameChange "42") initial)
      = step (UsernameChange "42") initial).
Proof.
  apply (enter_click_iff (step (UsernameChange "42") initial)). reflexivity.
Defined.

(** In every state a user can reach, the dashboard is shown only for a user
    whose id is not empty and whose name is "Farmer " followed by the id. *)
Theorem dashboard_only_for_entered_user (s : State.t) :
  reachable s ->
  screen s = Dashboard ->
  exists v : string,
    truthy v = true
    /\ State.user s
       = Some {| User.id := v; User.name := Some ("Farmer " +:+ v) |}.
Proof.
  intros Hr Hs.
  destruct (screen_Dashboard_user s Hs) as (u & n & Hu & Hn & _).
  destruct (reachable_named_by_id s Hr u n Hu Hn) as [-> Hid].
  exists (User.id u). split; [exact Hid |].
  rewrite Hu. destruct u as [v n']. cbn [User.name User.id] in *.
  rewrite Hn. reflexivity.
Qed.

Lemma dashboard_only_for_entered_user_witness :
  exists v : string,
    truthy v = true
    /\ State.user (step EnterClick (step (UsernameChange "42") initial))
       = Some {| User.id := v; User.name := Some ("Farmer " +:+ v) |}.
Proof.
  apply (dashboard_only_for_entered_user
           (step EnterClick (step (UsernameChange "42") initial))).
  - apply reachable_step; [apply reachable_step; [apply reachable_initial |] |];
      reflexivity.
  - reflexivity.
Defined.

(** In every state a user can reach, the dashboard shows the prediction for
    the crop and the area that are in the form, together with the mocked
    readings and the three recommendations, and it is not loading. *)
Theorem dashboard_shows_current_prediction (s : State.t) :
  reachable s ->
  screen s = Dashboard ->
  State.loading s = false
  /\ State.weather s = Some mockWeather
  /\ State.soil s = Some mockSoil
  /\ State.recommendations s
     = [irrigation_sufficient; fertilizer_compost; pest_monitor]
  /\ exists y : Prediction,
       fakePredictAPI (mockFeatures (Farm.crop (State.farm s))
                                    (Farm.areaHa (State.farm s)))
       = Fulfilled y
       /\ State.prediction s = Some y.
Proof.
  intros Hr Hs.
  destruct (screen_Dashboard_user s Hs) as (u & n & Hu & _).
  assert (fetchAllData s = s) as Hf.
  { apply (reachable_fetched s Hr). rewrite Hu. eexists. reflexivity. }
  rewrite <- Hf. repeat split; try reflexivity.
  eexists. split; reflexivity.
Qed.

Lemma dashboard_shows_current_prediction_witness :
  let s := step (CropChange "rice")
             (step EnterClick (step (UsernameChange "42") initial)) in
  State.loading s = false
  /\ State.weather s = Some mockWeather
  /\ State.soil s = Some mockSoil
  /\ State.recommendations s
     = [irrigation_sufficient; fertilizer_compost; pest_monitor]
  /\ exists y : Prediction,
       fakePredictAPI (mockFeatures (Farm.crop (State.farm s))
                                    (Farm.areaHa (State.farm s)))
       = Fulfilled y
       /\ State.prediction s = Some y.
Proof.
  apply (dashboard_shows_current_prediction
           (step (CropChange "rice")
              (step EnterClick (step (UsernameChange "42") initial)))).
  - repeat (apply reachable_step; [| reflexivity]). apply reachable_initial.
  - reflexivity.
Defined.

(** In every state a user can reach, nothing has been written to the
    console: the [catch] branch of [fetchAllData] never runs. *)
Theorem reachable_console_empty (s : State.t) :
  reachable s -> State.console s = [] /\ State.loading s = false.
Proof.
  induction 1 as [| e s Hr [IHc IHl] He].
  - split; reflexivity.
  - destruct (step_console_loading e s) as [Hc Hl].
    split; [rewrite Hc; exact IHc | apply Hl; exact IHl].
Qed.

Lemma reachable_console_empty_witness :
  State.console (step PredictClick
                   (step EnterClick (step (UsernameChange "42") initial))) = []
  /\ State.loading (step PredictClick
                      (step EnterClick (step (UsernameChange "42") initial)))
     = false.
Proof.
  apply (reachable_console_empty
           (step PredictClick
              (step EnterClick (step (UsernameChange "42") initial)))).
  repeat (apply reachable_step; [| reflexivity]). apply reachable_initial.
Defined.
